(** * The market pricing engine of EbayAutolister

    A shallow embedding of the Python package [ebay_pricing]
    ([__init__.py], [market_research.py], [browse_api.py],
    [cache_manager.py], [pricing_engine.py]) and of the pricing tables of
    [config.py], with the properties of the engine proved about it.

    Conventions of the embedding.
    - A Python [float] is an exact rational ([Qc], rationals in lowest
      terms, so that equality is Leibniz equality).  Rounding of binary
      floating point is not modelled; a decimal literal of the source is the
      rational it denotes.
    - A Python [int] is a [Z]; a [str] is a [string]; [None] of an
      [Optional] is [None].
    - A [datetime] is a number of microseconds on the time line.
    - A raised exception is a value of [exc]; [try]/[except Exception] is
      [try_except].
    - An f-string is kept as the list of its pieces ([fstring]): literal text
      and the values formatted into it, each with its format. *)

From Stdlib Require Import ZArith QArith Qcanon Lia.
From Stdlib Require Import Reals Qreals Lra.
From Stdlib Require Import Ascii String DecimalString DecimalZ.
From stdpp Require Import base option numbers strings list sorting gmap.

Local Open Scope Z_scope.
Local Open Scope Qc_scope.

(** ** Python values *)

Abbreviation float := Qc.

(** The float denoted by a decimal literal: [fl 0.92] is 23/25. *)
Definition fl (q : Q) : float := Q2Qc q.

Definition of_int (n : Z) : float := Q2Qc (inject_Z n).

Abbreviation datetime := Z.

(** [bool(x)] of an optional float: [None] and [0.0] are false. *)
Definition float_truthy (x : option float) : bool :=
  match x with
  | None => false
  | Some r => bool_decide (r ≠ 0)
  end.

(** The pieces of an f-string, in order. *)
Inductive piece :=
  | Lit (s : string)      (* literal text, or a [str] value formatted as it is *)
  | Money (x : float)     (* a float under the format [:.2f] *)
  | Num (x : float)       (* a float under the default format *)
  | Int (n : Z).          (* an int under the default format *)

Definition fstring := list piece.

(** ** Exceptions *)

Inductive exception :=
  | KeyError (key : string)
  | TypeError
  | ValueError
  | AttributeError
  | JSONDecodeError
  | StatisticsError
  | RuntimeError (msg : string).

Inductive exc (A : Type) :=
  | Ok (a : A)
  | Raise (e : exception).
Arguments Ok {A} a.
Arguments Raise {A} e.

Definition exc_bind {A B} (m : exc A) (k : A → exc B) : exc B :=
  match m with
  | Ok a => k a
  | Raise e => Raise e
  end.

#[global] Instance exc_mret : MRet exc := @Ok.
#[global] Instance exc_mbind : MBind exc := λ A B k m, exc_bind m k.
#[global] Instance exc_fmap : FMap exc :=
  λ A B f m, match m with Ok a => Ok (f a) | Raise e => Raise e end.

(** [try: m except Exception as e: h e] *)
Definition try_except {A} (m : exc A) (h : exception → exc A) : exc A :=
  match m with
  | Ok a => Ok a
  | Raise e => h e
  end.

(** ** Code that mutates a state and may raise

    A computation on a state of type [S] returns a value or raises, and
    leaves a state in both cases: assignments done before an exception is
    raised stay done. *)

Definition ST (S A : Type) : Type := S → exc A * S.

Definition st_ret {S A} (a : A) : ST S A := λ s, (Ok a, s).

Definition st_bind {S A B} (m : ST S A) (k : A → ST S B) : ST S B :=
  λ s, match m s with
       | (Ok a, s') => k a s'
       | (Raise e, s') => (Raise e, s')
       end.

#[global] Instance st_mret {S} : MRet (ST S) := @st_ret S.
#[global] Instance st_mbind {S} : MBind (ST S) := λ A B k m, st_bind m k.

(** A call of a function that only returns or raises. *)
Definition st_lift {S A} (m : exc A) : ST S A := λ s, (m, s).

(** An assignment to the state. *)
Definition st_modify {S} (f : S → S) : ST S unit := λ s, (Ok tt, f s).

Definition st_get {S} : ST S S := λ s, (Ok s, s).

(** [try: m except Exception as e: h e] *)
Definition st_try_except {S A} (m : ST S A) (h : exception → ST S A)
    : ST S A :=
  λ s, match m s with
       | (Ok a, s') => (Ok a, s')
       | (Raise e, s') => h e s'
       end.

(** ** Data model ([ebay_pricing/__init__.py]) *)

Module SoldListing.
Record t := mk {
  title : string;
  price : float;
  sold_date : datetime;
  condition : string;
  source : string;
  url : option string
}.
End SoldListing.

Module MarketData.
Record t := mk {
  brand : string;
  model : string;
  condition : string;
  avg_sold_price : float;
  median_sold_price : float;
  price_range_low : float;
  price_range_high : float;
  sold_count : Z;
  sold_listings : list SoldListing.t;
  active_listing_count : Z;
  avg_active_price : float;
  median_active_price : float;
  confidence : float;
  data_age_hours : float;
  sources : list string;
  created_at : datetime
}.

(** [MarketData(brand=..., model=..., condition=..., sources=[])]: every
    other field takes its default; [created_at] defaults to
    [datetime.now()], read by the caller. *)
Definition new (brand model condition : string) (now : datetime) : t :=
  {| brand := brand; model := model; condition := condition;
     avg_sold_price := 0; median_sold_price := 0;
     price_range_low := 0; price_range_high := 0;
     sold_count := 0%Z; sold_listings := [];
     active_listing_count := 0%Z;
     avg_active_price := 0; median_active_price := 0;
     confidence := 0; data_age_hours := 0;
     sources := []; created_at := now |}.

(** Attribute assignments [market_data.f = v]. *)
Definition set_sold_listings (v : list SoldListing.t) (m : t) : t :=
  mk (brand m) (model m) (condition m) (avg_sold_price m) (median_sold_price m)
     (price_range_low m) (price_range_high m) (sold_count m) v
     (active_listing_count m) (avg_active_price m) (median_active_price m)
     (confidence m) (data_age_hours m) (sources m) (created_at m).

Definition set_avg_sold_price (v : float) (m : t) : t :=
  mk (brand m) (model m) (condition m) v (median_sold_price m)
     (price_range_low m) (price_range_high m) (sold_count m) (sold_listings m)
     (active_listing_count m) (avg_active_price m) (median_active_price m)
     (confidence m) (data_age_hours m) (sources m) (created_at m).

Definition set_median_sold_price (v : float) (m : t) : t :=
  mk (brand m) (model m) (condition m) (avg_sold_price m) v
     (price_range_low m) (price_range_high m) (sold_count m) (sold_listings m)
     (active_listing_count m) (avg_active_price m) (median_active_price m)
     (confidence m) (data_age_hours m) (sources m) (created_at m).

Definition set_price_range_low (v : float) (m : t) : t :=
  mk (brand m) (model m) (condition m) (avg_sold_price m) (median_sold_price m)
     v (price_range_high m) (sold_count m) (sold_listings m)
     (active_listing_count m) (avg_active_price m) (median_active_price m)
     (confidence m) (data_age_hours m) (sources m) (created_at m).

Definition set_price_range_high (v : float) (m : t) : t :=
  mk (brand m) (model m) (condition m) (avg_sold_price m) (median_sold_price m)
     (price_range_low m) v (sold_count m) (sold_listings m)
     (active_listing_count m) (avg_active_price m) (median_active_price m)
     (confidence m) (data_age_hours m) (sources m) (created_at m).

Definition set_sold_count (v : Z) (m : t) : t :=
  mk (brand m) (model m) (condition m) (avg_sold_price m) (median_sold_price m)
     (price_range_low m) (price_range_high m) v (sold_listings m)
     (active_listing_count m) (avg_active_price m) (median_active_price m)
     (confidence m) (data_age_hours m) (sources m) (created_at m).

Definition set_active_listing_count (v : Z) (m : t) : t :=
  mk (brand m) (model m) (condition m) (avg_sold_price m) (median_sold_price m)
     (price_range_low m) (price_range_high m) (sold_count m) (sold_listings m)
     v (avg_active_price m) (median_active_price m)
     (confidence m) (data_age_hours m) (sources m) (created_at m).

Definition set_avg_active_price (v : float) (m : t) : t :=
  mk (brand m) (model m) (condition m) (avg_sold_price m) (median_sold_price m)
     (price_range_low m) (price_range_high m) (sold_count m) (sold_listings m)
     (active_listing_count m) v (median_active_price m)
     (confidence m) (data_age_hours m) (sources m) (created_at m).

Definition set_median_active_price (v : float) (m : t) : t :=
  mk (brand m) (model m) (condition m) (avg_sold_price m) (median_sold_price m)
     (price_range_low m) (price_range_high m) (sold_count m) (sold_listings m)
     (active_listing_count m) (avg_active_price m) v
     (confidence m) (data_age_hours m) (sources m) (created_at m).

Definition set_data_age_hours (v : float) (m : t) : t :=
  mk (brand m) (model m) (condition m) (avg_sold_price m) (median_sold_price m)
     (price_range_low m) (price_range_high m) (sold_count m) (sold_listings m)
     (active_listing_count m) (avg_active_price m) (median_active_price m)
     (confidence m) v (sources m) (created_at m).

(** [market_data.sources.append(tag)] *)
Definition sources_append (tag : string) (m : t) : t :=
  mk (brand m) (model m) (condition m) (avg_sold_price m) (median_sold_price m)
     (price_range_low m) (price_range_high m) (sold_count m) (sold_listings m)
     (active_listing_count m) (avg_active_price m) (median_active_price m)
     (confidence m) (data_age_hours m) (sources m ++ [tag]) (created_at m).
End MarketData.

Module PricingRecommendation.
Record t := mk {
  buy_it_now_price : float;
  min_offer_price : option float;
  auto_accept_offer : option float;
  auto_decline_offer : option float;
  auction_start_price : option float;
  auction_reserve_price : option float;
  confidence : float;
  reasoning : fstring;
  market_data : option MarketData.t
}.
End PricingRecommendation.

(** ** Pricing tables ([config.py]) *)

Module Config.

Definition CONDITION_MAPPINGS : gmap string string := list_to_map [
    ("like new", "LIKE_NEW");
    ("very good", "USED_VERY_GOOD");
    ("good", "USED_GOOD");
    ("acceptable", "USED_ACCEPTABLE");
    ("salvage", "FOR_PARTS_OR_NOT_WORKING");
    ("likenew", "LIKE_NEW");
    ("like-new", "LIKE_NEW");
    ("verygood", "USED_VERY_GOOD");
    ("very-good", "USED_VERY_GOOD");
    ("vgood", "USED_VERY_GOOD");
    ("v good", "USED_VERY_GOOD");
    ("vg", "USED_VERY_GOOD");
    ("new", "NEW");
    ("brand new", "NEW");
    ("sealed", "NEW");
    ("mint", "NEW");
    ("unopened", "NEW");
    ("open box", "NEW_OTHER");
    ("new open box", "NEW_OTHER");
    ("new other", "NEW_OTHER");
    ("new without tags", "NEW_OTHER");
    ("graded", "LIKE_NEW");
    ("new with defects", "NEW_WITH_DEFECTS");
    ("new damaged", "NEW_WITH_DEFECTS");
    ("new imperfect", "NEW_WITH_DEFECTS");
    ("certified refurbished", "CERTIFIED_REFURBISHED");
    ("manufacturer refurbished", "CERTIFIED_REFURBISHED");
    ("excellent refurbished", "EXCELLENT_REFURBISHED");
    ("very good refurbished", "VERY_GOOD_REFURBISHED");
    ("good refurbished", "GOOD_REFURBISHED");
    ("seller refurbished", "SELLER_REFURBISHED");
    ("refurbished", "SELLER_REFURBISHED");
    ("renewed", "SELLER_REFURBISHED");
    ("restored", "SELLER_REFURBISHED");
    ("used excellent", "USED_EXCELLENT");
    ("used like new", "LIKE_NEW");
    ("excellent", "USED_EXCELLENT");
    ("near mint", "LIKE_NEW");
    ("used very good", "USED_VERY_GOOD");
    ("light wear", "USED_VERY_GOOD");
    ("used good", "USED_GOOD");
    ("moderate wear", "USED_GOOD");
    ("normal wear", "USED_GOOD");
    ("used acceptable", "USED_ACCEPTABLE");
    ("fair", "USED_ACCEPTABLE");
    ("heavy wear", "USED_ACCEPTABLE");
    ("well used", "USED_ACCEPTABLE");
    ("pre owned excellent", "PRE_OWNED_EXCELLENT");
    ("pre owned fair", "PRE_OWNED_FAIR");
    ("pre-owned excellent", "PRE_OWNED_EXCELLENT");
    ("pre-owned fair", "PRE_OWNED_FAIR");
    ("for parts", "FOR_PARTS_OR_NOT_WORKING");
    ("not working", "FOR_PARTS_OR_NOT_WORKING");
    ("broken", "FOR_PARTS_OR_NOT_WORKING");
    ("parts only", "FOR_PARTS_OR_NOT_WORKING");
    ("repair", "FOR_PARTS_OR_NOT_WORKING");
    ("damaged", "FOR_PARTS_OR_NOT_WORKING");
    ("scrap", "FOR_PARTS_OR_NOT_WORKING");
    ("parts", "FOR_PARTS_OR_NOT_WORKING") ]%string.

Record pricing_config := {
  base_multiplier : float;
  condition_penalties : gmap string float;
  cache_duration_hours : Z;
  sold_items_lookback_days : Z;
  min_sold_samples : Z;
  outlier_threshold : float;
  fallback_msrp_multiplier : float
}.

Definition PRICING_CONFIG : pricing_config := {|
  base_multiplier := fl 0.92;
  condition_penalties := list_to_map [
    ("LIKE_NEW"%string, fl 0.00);
    ("USED_EXCELLENT"%string, fl 0.05);
    ("USED_VERY_GOOD"%string, fl 0.10);
    ("USED_GOOD"%string, fl 0.10);
    ("USED_ACCEPTABLE"%string, fl 0.20);
    ("FOR_PARTS_OR_NOT_WORKING"%string, fl 0.50) ];
  cache_duration_hours := 24;
  sold_items_lookback_days := 30;
  min_sold_samples := 3;
  outlier_threshold := fl 2.5;
  fallback_msrp_multiplier := fl 0.50
|}.

Record best_offer_config := {
  enabled : bool;
  min_offer_percentage : float;
  auto_accept_percentage : float;
  auto_decline_percentage : float
}.

Definition BEST_OFFER_CONFIG : best_offer_config := {|
  enabled := true;
  min_offer_percentage := fl 0.85;
  auto_accept_percentage := fl 0.95;
  auto_decline_percentage := fl 0.75
|}.

End Config.

(** ** Methods of [str]

    Characters are 8-bit; case mapping and white space are those of ASCII. *)

Module Str.

Definition lower_char (c : ascii) : ascii :=
  let n := N_of_ascii c in
  if ((65 <=? n) && (n <=? 90))%N then ascii_of_N (n + 32) else c.

Definition upper_char (c : ascii) : ascii :=
  let n := N_of_ascii c in
  if ((97 <=? n) && (n <=? 122))%N then ascii_of_N (n - 32) else c.

Fixpoint map_chars (f : ascii → ascii) (s : string) : string :=
  match s with
  | EmptyString => EmptyString
  | String c s' => String (f c) (map_chars f s')
  end.

(** [s.lower()] and [s.upper()] *)
Definition lower (s : string) : string := map_chars lower_char s.
Definition upper (s : string) : string := map_chars upper_char s.

(** White space for [split()] and [strip()]: tab to carriage return, the
    separators 28 to 31, and the space. *)
Definition is_space (c : ascii) : bool :=
  let n := N_of_ascii c in
  (((9 <=? n) && (n <=? 13)) || ((28 <=? n) && (n <=? 32)))%N.

(** [s.split()]: the maximal runs of characters that are not white space.
    [cur] is the run being read, in reverse. *)
Fixpoint split_go (cur : string) (s : string) : list string :=
  match s with
  | EmptyString =>
      match cur with EmptyString => [] | _ => [String.rev cur] end
  | String c s' =>
      if is_space c then
        match cur with
        | EmptyString => split_go EmptyString s'
        | _ => String.rev cur :: split_go EmptyString s'
        end
      else split_go (String c cur) s'
  end.

Definition split (s : string) : list string := split_go EmptyString s.

(** [sep.join(parts)] *)
Definition join (sep : string) (parts : list string) : string :=
  String.concat sep parts.

Fixpoint lstrip (s : string) : string :=
  match s with
  | EmptyString => EmptyString
  | String c s' => if is_space c then lstrip s' else s
  end.

(** [s.strip()] *)
Definition strip (s : string) : string :=
  String.rev (lstrip (String.rev (lstrip s))).

(** [kw in s] *)
Fixpoint contains (kw s : string) : bool :=
  String.prefix kw s
  || match s with
     | EmptyString => false
     | String _ s' => contains kw s'
     end.

(** [s in l], for a list [l] of strings *)
Definition mem (s : string) (l : list string) : bool :=
  bool_decide (s ∈ l).

End Str.

(** ** The functions of the module [statistics], and [min] and [max]

    [statistics.stdev] is the square root of [statistics.variance]; the
    embedding keeps the variance and states every test on the standard
    deviation through its square. *)

Module Statistics.

Definition fsum (data : list float) : float := foldr Qcplus 0 data.

Definition of_nat (n : nat) : float := of_int (Z.of_nat n).

(** [statistics.mean(data)]; raises on no data point. *)
Definition mean (data : list float) : exc float :=
  match data with
  | [] => Raise StatisticsError
  | _ => Ok (fsum data / of_nat (length data))
  end.

(** [statistics.variance(data)]: the sample variance; raises on fewer than
    two data points. *)
Definition variance (data : list float) : exc float :=
  if bool_decide (length data < 2)%nat then Raise StatisticsError
  else
    let n := of_nat (length data) in
    let c := fsum data / n in
    Ok (fsum (map (λ x, (x - c) * (x - c)) data) / (n - 1)).

(** [statistics.median(data)]: the middle of the sorted data, the mean of
    the two middle values when their number is even. *)
Definition median (data : list float) : exc float :=
  let data := merge_sort Qcle data in
  let n := length data in
  if bool_decide (n = 0)%nat then Raise StatisticsError
  else if bool_decide (n mod 2 = 1)%nat then Ok (nth (n / 2) data 0)
  else
    let i := (n / 2)%nat in
    Ok ((nth (i - 1) data 0 + nth i data 0) / fl 2).

Definition fmin (a b : float) : float := if bool_decide (b < a) then b else a.
Definition fmax (a b : float) : float := if bool_decide (a < b) then b else a.

(** [min(data)] and [max(data)]; both raise on an empty list. *)
Definition min (data : list float) : exc float :=
  match data with
  | [] => Raise ValueError
  | x :: rest => Ok (foldl fmin x rest)
  end.

Definition max (data : list float) : exc float :=
  match data with
  | [] => Raise ValueError
  | x :: rest => Ok (foldl fmax x rest)
  end.

End Statistics.

(** ** Sold-comp statistics ([market_research.py]) *)

Module MarketResearch.
Import Config.

(** [abs((price - mean) / stdev) <= threshold], for [stdev] the positive
    square root of [variance]: both sides of the comparison squared, since
    rational numbers have no square root.  Lemma [z_score_within_real] below
    states it with the square root, over the real numbers. *)
Definition z_score_within (price mean variance threshold : float) : Prop :=
  0 ≤ threshold
  ∧ (price - mean) * (price - mean) ≤ threshold * threshold * variance.

#[global] Instance z_score_within_dec price mean variance threshold :
  Decision (z_score_within price mean variance threshold).
Proof. unfold z_score_within. apply _. Defined.

Definition remove_outliers (prices : list float) (threshold : option float)
    : list float :=
  let threshold := default (outlier_threshold PRICING_CONFIG) threshold in
  if bool_decide (length prices < 3)%nat then prices
  else
    let body :=
      mean ← Statistics.mean prices;
      variance ← Statistics.variance prices;
      if bool_decide (variance = 0) then Ok prices
      else
        let filtered_prices :=
          filter (λ price, z_score_within price mean variance threshold)
                 prices in
        match filtered_prices with
        | [] =>
            median_price ← Statistics.median prices;
            Ok [median_price]
        | _ => Ok filtered_prices
        end in
    match body with
    | Ok result => result
    | Raise _ => prices
    end.

(** The dictionary returned by [calculate_sold_stats]. *)
Record sold_stats := {
  avg_sold_price : float;
  median_sold_price : float;
  price_range_low : float;
  price_range_high : float;
  sold_count : Z
}.

Definition calculate_sold_stats (sold_listings : list SoldListing.t)
    : exc sold_stats :=
  match sold_listings with
  | [] =>
      Ok {| avg_sold_price := 0; median_sold_price := 0;
            price_range_low := 0; price_range_high := 0;
            sold_count := 0%Z |}
  | _ =>
      let prices := map SoldListing.price sold_listings in
      let filtered_prices := remove_outliers prices None in
      avg_price ← Statistics.mean filtered_prices;
      median_price ← Statistics.median filtered_prices;
      min_price ← Statistics.min filtered_prices;
      max_price ← Statistics.max filtered_prices;
      Ok {| avg_sold_price := avg_price;
            median_sold_price := median_price;
            price_range_low := min_price;
            price_range_high := max_price;
            sold_count := Z.of_nat (length sold_listings) |}
  end.

End MarketResearch.

(** ** Active-listing analysis ([browse_api.py]) *)

Module BrowseAPI.

(** What the price loop of [analyze_active_competition] makes of the field
    [item['price']['value']] of an item summary. *)
Inductive price_value :=
  | NoValue                (* no such field, or a false value: skipped *)
  | NotANumber             (* [float(value)] raises [ValueError] or [TypeError] *)
  | Value (x : float).     (* [float(value)] is [x] *)

Record item_summary := { price : price_value }.

(** The dictionary returned by [search_active_listings]; a key may be
    missing. *)
Record search_results := {
  itemSummaries : option (list item_summary);
  total : option Z
}.

(** The dictionary returned by [analyze_active_competition]. *)
Record active_stats := {
  avg_active_price : float;
  median_active_price : float;
  active_listing_count : Z;
  price_range_low : float;
  price_range_high : float
}.

Definition _get_minimum_price_filter (brand model : string) : float :=
  let brand_lower := Str.lower brand in
  let model_lower := Str.lower model in
  let any_in (keywords : list string) :=
    existsb (λ kw, Str.contains kw model_lower) keywords in
  let laptop_brands :=
    ["apple"; "dell"; "hp"; "lenovo"; "asus"; "acer"; "microsoft"; "razer";
     "msi"]%string in
  let laptop_keywords :=
    ["macbook"; "laptop"; "notebook"; "chromebook"; "surface";
     "thinkpad"]%string in
  if Str.mem brand_lower laptop_brands || any_in laptop_keywords then fl 200.0
  else
  let console_brands := ["nintendo"; "sony"; "microsoft"; "valve"]%string in
  let console_keywords :=
    ["switch"; "playstation"; "ps4"; "ps5"; "xbox"; "steam deck"]%string in
  if Str.mem brand_lower console_brands || any_in console_keywords then fl 100.0
  else
  let tablet_keywords := ["ipad"; "tablet"; "tab"; "kindle"]%string in
  if any_in tablet_keywords then fl 80.0
  else
  let phone_keywords := ["iphone"; "galaxy"; "pixel"; "phone"]%string in
  if any_in phone_keywords then fl 75.0
  else
  let camera_brands :=
    ["canon"; "nikon"; "sony"; "fujifilm"; "panasonic"; "olympus"]%string in
  let camera_keywords := ["camera"; "dslr"; "mirrorless"]%string in
  if Str.mem brand_lower camera_brands || any_in camera_keywords then fl 100.0
  else fl 50.0.

(** The loop that extracts the prices of the item summaries. *)
Fixpoint extract_prices (item_summaries : list item_summary) : list float :=
  match item_summaries with
  | [] => []
  | item :: rest =>
      match price item with
      | Value x => x :: extract_prices rest
      | NoValue | NotANumber => extract_prices rest
      end
  end.

Definition no_active_stats (count : Z) : active_stats :=
  {| avg_active_price := 0; median_active_price := 0;
     active_listing_count := count;
     price_range_low := 0; price_range_high := 0 |}.

Section Analyze.

(** [EbayBrowseAPI.search_active_listings(brand, model, condition,
    min_price=...)], the call to the marketplace. *)
Variable search_active_listings :
  string → string → string → float → exc search_results.

Definition analyze_active_competition (brand model condition : string)
    : exc active_stats :=
  let min_price := _get_minimum_price_filter brand model in
  try_except
    (results ← search_active_listings brand model condition min_price;
     let item_summaries := default [] (itemSummaries results) in
     let total_count := default 0%Z (total results) in
     match item_summaries with
     | [] => Ok (no_active_stats 0)
     | _ =>
         let prices := extract_prices item_summaries in
         match prices with
         | [] => Ok (no_active_stats total_count)
         | _ =>
             avg_price ← Statistics.mean prices;
             median_price ← Statistics.median prices;
             min_price ← Statistics.min prices;
             max_price ← Statistics.max prices;
             Ok {| avg_active_price := avg_price;
                   median_active_price := median_price;
                   active_listing_count := Z.of_nat (length prices);
                   price_range_low := min_price;
                   price_range_high := max_price |}
         end
     end)
    (λ _, Ok (no_active_stats 0)).

End Analyze.

End BrowseAPI.

(** ** JSON values and the texts that hold them *)

Module Json.

#[local] Set Warnings "-register-all".

Inductive t :=
  | JNull
  | JBool (b : bool)
  | JInt (n : Z)
  | JFloat (x : float)
  | JStr (s : string)
  | JArr (items : list t)
  | JObj (members : list (string * t)).   (* a dictionary: its keys are distinct *)

(** A text of the column [data_json] is represented by what [json.loads]
    makes of it: the value it denotes, or a decoding error. *)
Inductive text :=
  | Dumps (j : t)
  | Garbage (s : string).

Definition dumps (j : t) : text := Dumps j.

Definition loads (s : text) : exc t :=
  match s with
  | Dumps j => Ok j
  | Garbage _ => Raise JSONDecodeError
  end.

Fixpoint assoc (key : string) (members : list (string * t)) : option t :=
  match members with
  | [] => None
  | (k, v) :: rest => if String.eqb k key then Some v else assoc key rest
  end.

(** [d[key]] *)
Definition getitem (d : t) (key : string) : exc t :=
  match d with
  | JObj members =>
      match assoc key members with
      | Some v => Ok v
      | None => Raise (KeyError key)
      end
  | _ => Raise TypeError
  end.

(** [d.get(key, dflt)] *)
Definition get (d : t) (key : string) (dflt : t) : exc t :=
  match d with
  | JObj members => Ok (default dflt (assoc key members))
  | _ => Raise AttributeError
  end.

(** The records of the data model are typed as their annotations say.  A
    JSON value of another type in the place of a field is outside these
    records; reading it is an error of the decoding. *)
Definition as_str (j : t) : exc string :=
  match j with JStr s => Ok s | _ => Raise TypeError end.

Definition as_float (j : t) : exc float :=
  match j with
  | JFloat x => Ok x
  | JInt n => Ok (of_int n)
  | _ => Raise TypeError
  end.

Definition as_int (j : t) : exc Z :=
  match j with JInt n => Ok n | _ => Raise TypeError end.

Definition as_optional_str (j : t) : exc (option string) :=
  match j with
  | JNull => Ok None
  | JStr s => Ok (Some s)
  | _ => Raise TypeError
  end.

Definition as_list (j : t) : exc (list t) :=
  match j with JArr items => Ok items | _ => Raise TypeError end.

End Json.

(** A loop [for x in l: out.append(f(x))] whose body may raise. *)
Fixpoint exc_map {A B} (f : A → exc B) (l : list A) : exc (list B) :=
  match l with
  | [] => Ok []
  | x :: rest =>
      y ← f x;
      ys ← exc_map f rest;
      Ok (y :: ys)
  end.

(** ** Time *)

(** [datetime.isoformat] and [datetime.fromisoformat]: the second reads
    back what the first writes. *)
Class IsoFormat := {
  isoformat : datetime → string;
  fromisoformat : string → exc datetime;
  fromisoformat_isoformat : ∀ d, fromisoformat (isoformat d) = Ok d
}.

(** [timedelta(hours=h)] *)
Definition timedelta_hours (h : Z) : Z := (h * 3600 * 1000000)%Z.

(** [delta.total_seconds()] *)
Definition total_seconds (delta : Z) : float := of_int delta / fl 1000000.

(** ** The cache ([cache_manager.py]) *)

Module CacheManager.
Import Config Json.

(** A row of the table [market_cache]; [cache_key] is its primary key. *)
Record row := {
  brand : string;
  model : string;
  condition : string;
  data_json : Json.text;
  created_at : string;
  expires_at : string
}.

(** The state the engine works on: the table of the cache and the clock,
    as the sequence of its readings to come. *)
Record world := {
  db : gmap string row;
  clock : nat → datetime
}.

(** The world after a reading of the clock. *)
Definition tick (w : world) : world :=
  {| db := db w; clock := λ n, clock w (S n) |}.

(** [datetime.now()] *)
Definition datetime_now : ST world datetime :=
  λ w, (Ok (clock w 0%nat), tick w).

(** [SELECT ... FROM market_cache WHERE cache_key = ?] and [fetchone()] *)
Definition select_row (cache_key : string) : ST world (option row) :=
  λ w, (Ok (db w !! cache_key), w).

(** [INSERT OR REPLACE INTO market_cache ...] *)
Definition insert_or_replace (cache_key : string) (r : row) : ST world unit :=
  st_modify (λ w, {| db := <[cache_key := r]> (db w); clock := clock w |}).

Definition _generate_cache_key (brand model condition : string) : string :=
  let brand := Str.join " " (Str.split (Str.lower brand)) in
  let model := Str.join " " (Str.split (Str.lower model)) in
  let condition := Str.strip (Str.lower condition) in
  brand +:+ "_" +:+ model +:+ "_" +:+ condition.

(** [DELETE FROM market_cache WHERE cache_key = ?] *)
Definition _delete_cache_entry (cache_key : string) : ST world unit :=
  st_modify (λ w, {| db := delete cache_key (db w); clock := clock w |}).

Section WithIsoFormat.
Context {iso : IsoFormat}.

Definition serialize_listing (listing : SoldListing.t) : Json.t :=
  JObj [
    ("title"%string, JStr (SoldListing.title listing));
    ("price"%string, JFloat (SoldListing.price listing));
    ("sold_date"%string, JStr (isoformat (SoldListing.sold_date listing)));
    ("condition"%string, JStr (SoldListing.condition listing));
    ("source"%string, JStr (SoldListing.source listing));
    ("url"%string,
     match SoldListing.url listing with
     | Some u => JStr u
     | None => JNull
     end) ].

Definition _serialize_market_data (market_data : MarketData.t) : Json.text :=
  let sold_listings_data :=
    map serialize_listing (MarketData.sold_listings market_data) in
  let data_dict := JObj [
    ("brand"%string, JStr (MarketData.brand market_data));
    ("model"%string, JStr (MarketData.model market_data));
    ("condition"%string, JStr (MarketData.condition market_data));
    ("avg_sold_price"%string, JFloat (MarketData.avg_sold_price market_data));
    ("median_sold_price"%string,
     JFloat (MarketData.median_sold_price market_data));
    ("price_range_low"%string, JFloat (MarketData.price_range_low market_data));
    ("price_range_high"%string,
     JFloat (MarketData.price_range_high market_data));
    ("sold_count"%string, JInt (MarketData.sold_count market_data));
    ("sold_listings"%string, JArr sold_listings_data);
    ("active_listing_count"%string,
     JInt (MarketData.active_listing_count market_data));
    ("avg_active_price"%string,
     JFloat (MarketData.avg_active_price market_data));
    ("median_active_price"%string,
     JFloat (MarketData.median_active_price market_data));
    ("confidence"%string, JFloat (MarketData.confidence market_data));
    ("sources"%string, JArr (map JStr (MarketData.sources market_data))) ] in
  Json.dumps data_dict.

Definition deserialize_listing (listing_data : Json.t) : exc SoldListing.t :=
  title ← (v ← getitem listing_data "title"; as_str v);
  price ← (v ← getitem listing_data "price"; as_float v);
  sold_date ← (v ← getitem listing_data "sold_date";
                s ← as_str v; fromisoformat s);
  condition ← (v ← getitem listing_data "condition"; as_str v);
  source ← (v ← getitem listing_data "source"; as_str v);
  url ← (v ← get listing_data "url" JNull; as_optional_str v);
  Ok (SoldListing.mk title price sold_date condition source url).

(** The record is built by [MarketData(...)], which leaves [data_age_hours]
    at its default and reads the clock for [created_at]. *)
Definition _deserialize_market_data (data_json : Json.text)
    : ST world MarketData.t :=
  data_dict ← st_lift (Json.loads data_json);
  sold_listings ← st_lift (
    v ← get data_dict "sold_listings" (JArr []);
    items ← as_list v;
    exc_map deserialize_listing items);
  brand ← st_lift (v ← getitem data_dict "brand"; as_str v);
  model ← st_lift (v ← getitem data_dict "model"; as_str v);
  condition ← st_lift (v ← getitem data_dict "condition"; as_str v);
  avg_sold_price ← st_lift (
    v ← get data_dict "avg_sold_price" (JFloat 0); as_float v);
  median_sold_price ← st_lift (
    v ← get data_dict "median_sold_price" (JFloat 0); as_float v);
  price_range_low ← st_lift (
    v ← get data_dict "price_range_low" (JFloat 0); as_float v);
  price_range_high ← st_lift (
    v ← get data_dict "price_range_high" (JFloat 0); as_float v);
  sold_count ← st_lift (v ← get data_dict "sold_count" (JInt 0); as_int v);
  active_listing_count ← st_lift (
    v ← get data_dict "active_listing_count" (JInt 0); as_int v);
  avg_active_price ← st_lift (
    v ← get data_dict "avg_active_price" (JFloat 0); as_float v);
  median_active_price ← st_lift (
    v ← get data_dict "median_active_price" (JFloat 0); as_float v);
  confidence ← st_lift (
    v ← get data_dict "confidence" (JFloat 0); as_float v);
  sources ← st_lift (
    v ← get data_dict "sources" (JArr []);
    items ← as_list v;
    exc_map as_str items);
  now ← datetime_now;
  st_ret (MarketData.mk brand model condition avg_sold_price median_sold_price
            price_range_low price_range_high sold_count sold_listings
            active_listing_count avg_active_price median_active_price
            confidence 0 sources now).

Definition get_cached_market_data (brand model condition : string)
    : ST world (option MarketData.t) :=
  let cache_key := _generate_cache_key brand model condition in
  row ← select_row cache_key;
  match row with
  | None => st_ret None
  | Some r =>
      expires_at ← st_lift (fromisoformat (expires_at r));
      now ← datetime_now;
      if bool_decide (expires_at < now)%Z then
        (_delete_cache_entry cache_key;;
         st_ret None)
      else
        st_try_except
          (market_data ← _deserialize_market_data (data_json r);
           created_at_dt ← st_lift (fromisoformat (created_at r));
           now ← datetime_now;
           let age_hours := total_seconds (now - created_at_dt) / fl 3600 in
           st_ret (Some (MarketData.set_data_age_hours age_hours market_data)))
          (λ _,
           (_delete_cache_entry cache_key;;
            st_ret None))
  end.

Definition cache_market_data (market_data : MarketData.t) : ST world unit :=
  let cache_key :=
    _generate_cache_key (MarketData.brand market_data)
      (MarketData.model market_data) (MarketData.condition market_data) in
  let data_json := _serialize_market_data market_data in
  created_at ← datetime_now;
  let cache_duration :=
    timedelta_hours (cache_duration_hours PRICING_CONFIG) in
  let expires_at := (created_at + cache_duration)%Z in
  insert_or_replace cache_key
    {| brand := MarketData.brand market_data;
       model := MarketData.model market_data;
       condition := MarketData.condition market_data;
       data_json := data_json;
       created_at := isoformat created_at;
       expires_at := isoformat expires_at |}.

End WithIsoFormat.

End CacheManager.

(** ** The pricing calculator ([pricing_engine.py]) *)

Module PricingEngine.
Import Config.

(** The chain [if]/[elif]/[elif]/[else] of
    [calculate_pricing_from_market_data] that determines [base_price],
    [confidence] and [reasoning]; [None] is the [else] branch, which returns
    from the function. *)
Definition determine_base_price (market_data : MarketData.t)
    (retail_price : option float) : option (float * float * fstring) :=
  let config := PRICING_CONFIG in
  let min_samples := min_sold_samples config in
  if bool_decide (min_samples ≤ MarketData.sold_count market_data)%Z then
    let base_price := MarketData.avg_sold_price market_data in
    Some (base_price, fl 0.9,
          [Lit "Based on "; Int (MarketData.sold_count market_data);
           Lit " sold listings (avg $"; Money base_price; Lit ")"])
  else if bool_decide (0 < MarketData.active_listing_count market_data)%Z then
    let base_price := MarketData.avg_active_price market_data * fl 0.95 in
    Some (base_price, fl 0.6,
          [Lit "Based on "; Int (MarketData.active_listing_count market_data);
           Lit " active listings ($";
           Money (MarketData.avg_active_price market_data); Lit " * 0.95)"])
  else if float_truthy retail_price
          && bool_decide (0 < default 0 retail_price) then
    let retail := default 0 retail_price in
    let base_price := retail * fallback_msrp_multiplier config in
    Some (base_price, fl 0.3,
          [Lit "Fallback to "; Num (fallback_msrp_multiplier config * fl 100);
           Lit "% MSRP ($"; Money retail; Lit ")"])
  else None.

(** [config['condition_penalties'].get(condition, 0.10)] *)
Definition condition_penalty (condition : string) : float :=
  default (fl 0.10) (condition_penalties PRICING_CONFIG !! condition).

Definition calculate_pricing_from_market_data (market_data : MarketData.t)
    (condition : string) (retail_price : option float)
    : PricingRecommendation.t :=
  let config := PRICING_CONFIG in
  let base_multiplier := base_multiplier config in
  match determine_base_price market_data retail_price with
  | None =>
      {| PricingRecommendation.buy_it_now_price := 0;
         PricingRecommendation.min_offer_price := None;
         PricingRecommendation.auto_accept_offer := None;
         PricingRecommendation.auto_decline_offer := None;
         PricingRecommendation.auction_start_price := None;
         PricingRecommendation.auction_reserve_price := None;
         PricingRecommendation.confidence := 0;
         PricingRecommendation.reasoning :=
           [Lit "No market data or retail price available"];
         PricingRecommendation.market_data := Some market_data |}
  | Some (base_price, confidence, reasoning) =>
      let condition_penalty := condition_penalty condition in
      let price_after_multiplier := base_price * base_multiplier in
      let buy_it_now_price := price_after_multiplier * (1 - condition_penalty) in
      let best_offer_config := BEST_OFFER_CONFIG in
      let '(min_offer_price, auto_accept_offer, auto_decline_offer) :=
        if enabled best_offer_config then
          (Some (buy_it_now_price * min_offer_percentage best_offer_config),
           Some (buy_it_now_price * auto_accept_percentage best_offer_config),
           Some (buy_it_now_price * auto_decline_percentage best_offer_config))
        else (None, None, None) in
      let detailed_reasoning :=
        reasoning ++ [Lit ". "]
        ++ [Lit "Applied "; Num (base_multiplier * fl 100);
            Lit "% base multiplier and "; Num (condition_penalty * fl 100);
            Lit "% condition penalty for "; Lit condition; Lit ". "]
        ++ [Lit "Final BIN: $"; Money buy_it_now_price] in
      {| PricingRecommendation.buy_it_now_price := buy_it_now_price;
         PricingRecommendation.min_offer_price := min_offer_price;
         PricingRecommendation.auto_accept_offer := auto_accept_offer;
         PricingRecommendation.auto_decline_offer := auto_decline_offer;
         PricingRecommendation.auction_start_price := None;
         PricingRecommendation.auction_reserve_price := None;
         PricingRecommendation.confidence := confidence;
         PricingRecommendation.reasoning := detailed_reasoning;
         PricingRecommendation.market_data := Some market_data |}
  end.

(** The dictionary returned by [upc_lookup.lookup_product], with the keys
    the engine reads. *)
Record upc_data := {
  title : string;
  brand : string;
  msrp : option float
}.

(** [bool(s)] of a string *)
Definition str_truthy (s : string) : bool := bool_decide (s ≠ EmptyString).

(** A block of code that works on an object created by the caller and hands
    it back; the state of the caller is not touched. *)
Definition st_local {S T A} (init : T) (m : ST T A) : ST S T :=
  λ s, match m init with
       | (Ok _, t) => (Ok t, s)
       | (Raise e, _) => (Raise e, s)
       end.

Section Engine.
Import CacheManager.
Context {iso : IsoFormat}.

(** The collaborators: the research of sold listings
    ([market_research.research_sold_comps_ai]), the analysis of the active
    listings ([browse_api.analyze_active_competition]) and the lookup of a
    barcode ([upc_lookup.lookup_product]).  The first two may raise. *)
Variable research_sold_comps_ai :
  string → string → string → exc (list SoldListing.t).
Variable analyze_active_competition :
  string → string → string → exc BrowseAPI.active_stats.
Variable lookup_product : string → option upc_data.

(** The first [try] block of [fetch_market_data], on [market_data]. *)
Definition fetch_sold_comps (brand model condition : string)
    : ST MarketData.t unit :=
  st_try_except
    (sold_listings ← st_lift (research_sold_comps_ai brand model condition);
     match sold_listings with
     | [] => st_ret tt
     | _ =>
         st_modify (MarketData.set_sold_listings sold_listings);;
         sold_stats ← st_lift (MarketResearch.calculate_sold_stats sold_listings);
         st_modify (MarketData.set_avg_sold_price
                      (MarketResearch.avg_sold_price sold_stats));;
         st_modify (MarketData.set_median_sold_price
                      (MarketResearch.median_sold_price sold_stats));;
         st_modify (MarketData.set_price_range_low
                      (MarketResearch.price_range_low sold_stats));;
         st_modify (MarketData.set_price_range_high
                      (MarketResearch.price_range_high sold_stats));;
         st_modify (MarketData.set_sold_count
                      (MarketResearch.sold_count sold_stats));;
         st_modify (MarketData.sources_append "ai_research")
     end)
    (λ _, st_ret tt).

(** The second [try] block of [fetch_market_data]. *)
Definition fetch_active_listings (brand model condition : string)
    : ST MarketData.t unit :=
  st_try_except
    (active_stats ← st_lift (analyze_active_competition brand model condition);
     if bool_decide (0 < BrowseAPI.active_listing_count active_stats)%Z then
       st_modify (MarketData.set_avg_active_price
                    (BrowseAPI.avg_active_price active_stats));;
       st_modify (MarketData.set_median_active_price
                    (BrowseAPI.median_active_price active_stats));;
       st_modify (MarketData.set_active_listing_count
                    (BrowseAPI.active_listing_count active_stats));;
       st_modify (MarketData.sources_append "browse_api")
     else st_ret tt)
    (λ _, st_ret tt).

Definition fetch_market_data (brand model condition : string)
    : ST world MarketData.t :=
  now ← datetime_now;
  let market_data := MarketData.new brand model condition now in
  st_local market_data
    (fetch_sold_comps brand model condition;;
     fetch_active_listings brand model condition).

(** The block [if upc: ...] of [get_pricing_recommendation]: the product
    name, the retail price and the brand after it. *)
Definition apply_upc (brand model : string) (retail_price : option float)
    (upc : option string) : string * string * option float :=
  let product_name := model in
  match upc with
  | None => (brand, product_name, retail_price)
  | Some code =>
      if str_truthy code then
        match lookup_product code with
        | None => (brand, product_name, retail_price)
        | Some upc_data =>
            let product_name :=
              if str_truthy (title upc_data) then title upc_data
              else product_name in
            let retail_price :=
              if negb (float_truthy retail_price)
                 && float_truthy (msrp upc_data)
              then msrp upc_data else retail_price in
            let brand :=
              if str_truthy (PricingEngine.brand upc_data)
              then PricingEngine.brand upc_data else brand in
            (brand, product_name, retail_price)
        end
      else (brand, product_name, retail_price)
  end.

(** [CONDITION_MAPPINGS.get(condition.lower(), condition).upper()] *)
Definition normalize_condition (condition : string) : string :=
  Str.upper (default condition (CONDITION_MAPPINGS !! Str.lower condition)).

Definition get_pricing_recommendation (brand model condition : string)
    (retail_price : option float) (upc : option string)
    : ST world PricingRecommendation.t :=
  let '(brand, product_name, retail_price) :=
    apply_upc brand model retail_price upc in
  let normalized_condition := normalize_condition condition in
  cached ← get_cached_market_data brand product_name normalized_condition;
  market_data ←
    match cached with
    | None =>
        market_data ← fetch_market_data brand product_name normalized_condition;
        (if bool_decide (0 < MarketData.sold_count market_data)%Z
            || bool_decide (0 < MarketData.active_listing_count market_data)%Z
         then cache_market_data market_data
         else st_ret tt);;
        st_ret market_data
    | Some market_data => st_ret market_data
    end;
  let pricing :=
    calculate_pricing_from_market_data market_data normalized_condition
      retail_price in
  st_ret pricing.

End Engine.

End PricingEngine.

(** ** Reference instances of the collaborators, for the examples *)

Module Examples.
Import CacheManager.

(** Timestamps written as decimal numbers of microseconds. *)
#[local] Program Instance decimal_iso : IsoFormat := {|
  isoformat d := DecimalString.NilEmpty.string_of_int (Z.to_int d);
  fromisoformat s :=
    match DecimalString.NilEmpty.int_of_string s with
    | Some i => Ok (Z.of_int i)
    | None => Raise ValueError
    end
|}.
Next Obligation.
  intros d. cbn. rewrite DecimalString.NilEmpty.isi.
  by rewrite DecimalZ.of_to.
Qed.

(** An empty cache, and a clock that advances by one second a reading from
    the instant 0. *)
Definition empty_world : world :=
  {| db := ∅; clock := λ n, (Z.of_nat n * 1000000)%Z |}.

(** A research of sold listings that finds nothing, and one that fails. *)
Definition research_nothing (brand model condition : string)
    : exc (list SoldListing.t) := Ok [].
Definition research_fails (brand model condition : string)
    : exc (list SoldListing.t) := Raise (RuntimeError "research failed").

(** A marketplace that answers one listing without a price, for a total of
    one. *)
Definition search_unpriced (brand model condition : string) (min_price : float)
    : exc BrowseAPI.search_results :=
  Ok {| BrowseAPI.itemSummaries := Some [ {| BrowseAPI.price := BrowseAPI.NoValue |} ];
        BrowseAPI.total := Some 1%Z |}.

(** A marketplace that answers nothing, and one that fails. *)
Definition search_nothing (brand model condition : string) (min_price : float)
    : exc BrowseAPI.search_results :=
  Ok {| BrowseAPI.itemSummaries := None; BrowseAPI.total := None |}.
Definition analyze_fails (brand model condition : string)
    : exc BrowseAPI.active_stats := Raise (RuntimeError "browse failed").

Definition lookup_nothing (code : string) : option PricingEngine.upc_data :=
  None.

(** The record that [fetch_market_data] builds from [research_nothing] and
    [search_unpriced]: one active listing, of average price 0. *)
Definition unpriced_market : MarketData.t :=
  MarketData.sources_append "browse_api"
    (MarketData.set_active_listing_count 1
       (MarketData.new "Acme" "Widget" "USED_GOOD" 0%Z)).

(** A record without market data. *)
Definition no_market : MarketData.t :=
  MarketData.new "Apple" "iPad Air" "LIKE_NEW" 0%Z.

(** A record with three sold listings of average price 200.00. *)
Definition sold_market : MarketData.t :=
  MarketData.set_sold_count 3
    (MarketData.set_avg_sold_price (fl 200.00)
       (MarketData.new "Apple" "iPad Air" "USED_GOOD" 0%Z)).



(** Five sold listings, of prices 100, 102, 98, 101 and 5000. *)
Definition sold_prices : list float :=
  [fl 100; fl 102; fl 98; fl 101; fl 5000].

Definition sold_listings : list SoldListing.t :=
  map (λ p, SoldListing.mk "Apple iPad Air" p 0%Z "USED_GOOD" "ai_research"
              None)
      sold_prices.

End Examples.

(** * Properties *)

Import Config PricingEngine.

(** Closed decidable facts, by evaluation. *)
Ltac by_compute :=
  lazymatch goal with
  | |- ?P => apply (bool_decide_eq_true_1 P); vm_compute; reflexivity
  end.

Abbreviation BIN := PricingRecommendation.buy_it_now_price.

(** Unfolds the operations on computations. *)
Ltac st_unfold :=
  repeat progress
    unfold st_try_except, st_lift, st_modify, st_ret, st_get, st_local,
      mbind, mret, st_mbind, st_mret, st_bind, exc_mbind, exc_mret, exc_bind
      in *.


(** The price formula of the tiers. *)
Definition bin_formula (base_price : float) (condition : string) : float :=
  base_price * fl 0.92 * (1 - condition_penalty condition).

Lemma calculate_pricing_tier md cond retail base conf reas :
  determine_base_price md retail = Some (base, conf, reas) →
  let r := calculate_pricing_from_market_data md cond retail in
  BIN r = bin_formula base cond
  ∧ PricingRecommendation.confidence r = conf
  ∧ PricingRecommendation.min_offer_price r = Some (BIN r * fl 0.85)
  ∧ PricingRecommendation.auto_accept_offer r = Some (BIN r * fl 0.95)
  ∧ PricingRecommendation.auto_decline_offer r = Some (BIN r * fl 0.75).
Proof.
  intros Htier. unfold calculate_pricing_from_market_data.
  rewrite Htier. cbn. repeat split.
Qed.

Lemma calculate_pricing_no_tier md cond retail :
  determine_base_price md retail = None →
  calculate_pricing_from_market_data md cond retail
  = {| PricingRecommendation.buy_it_now_price := 0;
       PricingRecommendation.min_offer_price := None;
       PricingRecommendation.auto_accept_offer := None;
       PricingRecommendation.auto_decline_offer := None;
       PricingRecommendation.auction_start_price := None;
       PricingRecommendation.auction_reserve_price := None;
       PricingRecommendation.confidence := 0;
       PricingRecommendation.reasoning :=
         [Lit "No market data or retail price available"];
       PricingRecommendation.market_data := Some md |}.
Proof.
  intros Htier. unfold calculate_pricing_from_market_data.
  by rewrite Htier.
Qed.

Lemma sold_tier md retail :
  (3 ≤ MarketData.sold_count md)%Z →
  ∃ reas, determine_base_price md retail
          = Some (MarketData.avg_sold_price md, fl 0.9, reas).
Proof.
  intros Hs. unfold determine_base_price. cbn.
  rewrite bool_decide_eq_true_2 by done. eauto.
Qed.

Lemma active_tier md retail :
  (MarketData.sold_count md < 3)%Z →
  (0 < MarketData.active_listing_count md)%Z →
  ∃ reas, determine_base_price md retail
          = Some (MarketData.avg_active_price md * fl 0.95, fl 0.6, reas).
Proof.
  intros Hs Ha. unfold determine_base_price. cbn.
  rewrite bool_decide_eq_false_2 by lia.
  rewrite bool_decide_eq_true_2 by done. eauto.
Qed.

Lemma retail_tier md r :
  (MarketData.sold_count md < 3)%Z →
  (MarketData.active_listing_count md ≤ 0)%Z →
  0 < r →
  ∃ reas, determine_base_price md (Some r)
          = Some (r * fl 0.50, fl 0.3, reas).
Proof.
  intros Hs Ha Hr. unfold determine_base_price. cbn.
  rewrite bool_decide_eq_false_2 by lia.
  rewrite bool_decide_eq_false_2 by lia.
  rewrite bool_decide_eq_true_2; last first.
  { intros ->. by apply Qclt_not_eq in Hr. }
  rewrite bool_decide_eq_true_2 by done. cbn. eauto.
Qed.

Lemma no_tier md retail :
  (MarketData.sold_count md < 3)%Z →
  (MarketData.active_listing_count md ≤ 0)%Z →
  (retail = None ∨ ∃ r, retail = Some r ∧ r ≤ 0) →
  determine_base_price md retail = None.
Proof.
  intros Hs Ha Hr. unfold determine_base_price. cbn.
  rewrite bool_decide_eq_false_2 by lia.
  rewrite bool_decide_eq_false_2 by lia.
  destruct Hr as [-> | (r & -> & Hr)]; [done|]. cbn.
  rewrite (bool_decide_eq_false_2 (0 < r)); [by rewrite andb_false_r|].
  by apply Qcle_not_lt.
Qed.

(** C1: the base price and the confidence are those of the first tier that
    applies, in the order sold listings (at least 3, whatever the active
    listings), active listings, retail price; the recommendation carries the
    confidence of the tier and the price formula applied to its base
    price. *)
Theorem tier_selection (md : MarketData.t) (cond : string)
    (retail : option float) :
  let r := calculate_pricing_from_market_data md cond retail in
  min_sold_samples PRICING_CONFIG = 3%Z
  ∧ ((3 ≤ MarketData.sold_count md)%Z →
     fst <$> determine_base_price md retail
       = Some (MarketData.avg_sold_price md, fl 0.9)
     ∧ PricingRecommendation.confidence r = fl 0.9
     ∧ BIN r = bin_formula (MarketData.avg_sold_price md) cond)
  ∧ ((MarketData.sold_count md < 3)%Z →
     (0 < MarketData.active_listing_count md)%Z →
     fst <$> determine_base_price md retail
       = Some (MarketData.avg_active_price md * fl 0.95, fl 0.6)
     ∧ PricingRecommendation.confidence r = fl 0.6
     ∧ BIN r = bin_formula (MarketData.avg_active_price md * fl 0.95) cond)
  ∧ ((MarketData.sold_count md < 3)%Z →
     (MarketData.active_listing_count md ≤ 0)%Z →
     ∀ p, retail = Some p → 0 < p →
     fst <$> determine_base_price md retail = Some (p * fl 0.50, fl 0.3)
     ∧ PricingRecommendation.confidence r = fl 0.3
     ∧ BIN r = bin_formula (p * fl 0.50) cond).
Proof.
  cbv zeta. split; [done|]. split; [|split].
  - intros Hs. destruct (sold_tier md retail Hs) as [reas Ht].
    destruct (calculate_pricing_tier md cond retail _ _ _ Ht) as (?&?&_).
    by rewrite Ht.
  - intros Hs Ha. destruct (active_tier md retail Hs Ha) as [reas Ht].
    destruct (calculate_pricing_tier md cond retail _ _ _ Ht) as (?&?&_).
    by rewrite Ht.
  - intros Hs Ha p -> Hp. destruct (retail_tier md p Hs Ha Hp) as [reas Ht].
    destruct (calculate_pricing_tier md cond (Some p) _ _ _ Ht) as (?&?&_).
    by rewrite Ht.
Qed.
Lemma tier_selection_witness :
  PricingRecommendation.confidence
    (calculate_pricing_from_market_data Examples.sold_market "USED_GOOD" None)
  = fl 0.9.
Proof.
  pose proof (tier_selection Examples.sold_market "USED_GOOD" None)
    as (_ & Hsold & _).
  destruct Hsold as (_ & Hc & _); [vm_compute; discriminate|]. exact Hc.
Defined.




(** The record of the counterexample is what the engine fetches when the
    marketplace reports a listing without a price. *)
Lemma unpriced_market_fetched :
  fst (fetch_market_data Examples.research_nothing
         (λ b m c, BrowseAPI.analyze_active_competition
                     Examples.search_unpriced b m c)
         "Acme" "Widget" "USED_GOOD" Examples.empty_world)
  = Ok Examples.unpriced_market.
Proof. reflexivity. Qed.




(** C4: without sold or active listings and without a positive retail
    price, the recommendation is the terminal one: price 0.0, confidence
    0.0, the reasoning that no data is available, no best-offer threshold. *)
Theorem no_data_terminal (md : MarketData.t) (cond : string)
    (retail : option float) :
  MarketData.sold_count md = 0%Z →
  MarketData.active_listing_count md = 0%Z →
  (retail = None ∨ ∃ p, retail = Some p ∧ p ≤ 0) →
  let r := calculate_pricing_from_market_data md cond retail in
  BIN r = 0
  ∧ PricingRecommendation.confidence r = 0
  ∧ PricingRecommendation.reasoning r
    = [Lit "No market data or retail price available"]
  ∧ PricingRecommendation.min_offer_price r = None
  ∧ PricingRecommendation.auto_accept_offer r = None
  ∧ PricingRecommendation.auto_decline_offer r = None.
Proof.
  intros Hs Ha Hr. cbv zeta.
  rewrite calculate_pricing_no_tier; [done|].
  apply no_tier; [lia..|done].
Qed.

Lemma no_data_terminal_witness :
  let r := calculate_pricing_from_market_data Examples.no_market "LIKE_NEW"
             (Some (fl 0.0)) in
  BIN r = 0
  ∧ PricingRecommendation.confidence r = 0
  ∧ PricingRecommendation.reasoning r
    = [Lit "No market data or retail price available"]
  ∧ PricingRecommendation.min_offer_price r = None
  ∧ PricingRecommendation.auto_accept_offer r = None
  ∧ PricingRecommendation.auto_decline_offer r = None.
Proof.
  apply (no_data_terminal Examples.no_market "LIKE_NEW" (Some (fl 0.0)));
    [reflexivity..|].
  right. exists (fl 0.0). split; [reflexivity|by_compute].
Defined.

(** C6: when a tier applies, the best-offer thresholds are the fractions
    0.85, 0.95 and 0.75 of the buy-it-now price (the feature is enabled in
    the configuration); with 3 sold listings of average 200.00 in condition
    USED_GOOD the price is 165.60 and the thresholds 140.76, 157.32 and
    124.20. *)
Theorem best_offer_thresholds (md : MarketData.t) (cond : string)
    (retail : option float) :
  let r := calculate_pricing_from_market_data md cond retail in
  enabled BEST_OFFER_CONFIG = true
  ∧ (is_Some (determine_base_price md retail) →
     PricingRecommendation.min_offer_price r = Some (BIN r * fl 0.85)
     ∧ PricingRecommendation.auto_accept_offer r = Some (BIN r * fl 0.95)
     ∧ PricingRecommendation.auto_decline_offer r = Some (BIN r * fl 0.75))
  ∧ (MarketData.sold_count md = 3%Z →
     MarketData.avg_sold_price md = fl 200.00 →
     cond = "USED_GOOD"%string →
     BIN r = fl 200.00 * fl 0.92 * (1 - fl 0.10)
     ∧ BIN r = fl 165.60
     ∧ PricingRecommendation.min_offer_price r = Some (fl 140.76)
     ∧ PricingRecommendation.auto_accept_offer r = Some (fl 157.32)
     ∧ PricingRecommendation.auto_decline_offer r = Some (fl 124.20)).
Proof.
  cbv zeta. split; [done|]. split.
  - intros [[[base conf] reas] Ht].
    by destruct (calculate_pricing_tier md cond retail _ _ _ Ht)
      as (_&_&?&?&?).
  - intros Hs Havg ->.
    destruct (sold_tier md retail ltac:(lia)) as [reas Ht].
    destruct (calculate_pricing_tier md "USED_GOOD" retail _ _ _ Ht)
      as (Hb&_&Hmin&Hacc&Hdec).
    rewrite Hmin, Hacc, Hdec, Hb, Havg.
    repeat split; try f_equal; by_compute.
Qed.

Lemma best_offer_thresholds_witness :
  let r := calculate_pricing_from_market_data Examples.sold_market "USED_GOOD"
             None in
  BIN r = fl 165.60
  ∧ PricingRecommendation.min_offer_price r = Some (fl 140.76).
Proof.
  pose proof (best_offer_thresholds Examples.sold_market "USED_GOOD" None)
    as (_ & _ & Hex).
  destruct Hex as (_ & Hb & Hmin & _); [reflexivity..|].
  split; [exact Hb|exact Hmin].
Defined.

(** C9: for a positive base price of a tier, the buy-it-now price for
    FOR_PARTS_OR_NOT_WORKING is below the one for USED_GOOD, which is below
    the one for LIKE_NEW, the record and the retail price being the same. *)
Theorem condition_penalty_monotone (md : MarketData.t)
    (retail : option float) (base conf : float) (reas : fstring) :
  determine_base_price md retail = Some (base, conf, reas) →
  0 < base →
  BIN (calculate_pricing_from_market_data md "FOR_PARTS_OR_NOT_WORKING" retail)
  < BIN (calculate_pricing_from_market_data md "USED_GOOD" retail)
  ∧ BIN (calculate_pricing_from_market_data md "USED_GOOD" retail)
    < BIN (calculate_pricing_from_market_data md "LIKE_NEW" retail).
Proof.
  intros Ht Hbase.
  destruct (calculate_pricing_tier md "FOR_PARTS_OR_NOT_WORKING" retail
              _ _ _ Ht) as (-> & _).
  destruct (calculate_pricing_tier md "USED_GOOD" retail _ _ _ Ht)
    as (-> & _).
  destruct (calculate_pricing_tier md "LIKE_NEW" retail _ _ _ Ht)
    as (-> & _).
  unfold bin_formula.
  assert (0 < base * fl 0.92) as Hpos.
  { apply Qcmult_pos_pos; [done|by_compute]. }
  split; apply Qcmult_lt_mono_pos_l; try done; by_compute.
Qed.

Lemma condition_penalty_monotone_witness :
  BIN (calculate_pricing_from_market_data Examples.sold_market
         "FOR_PARTS_OR_NOT_WORKING" None)
  < BIN (calculate_pricing_from_market_data Examples.sold_market
           "USED_GOOD" None)
  ∧ BIN (calculate_pricing_from_market_data Examples.sold_market
           "USED_GOOD" None)
    < BIN (calculate_pricing_from_market_data Examples.sold_market
             "LIKE_NEW" None).
Proof.
  eapply (condition_penalty_monotone Examples.sold_market None);
    [reflexivity|by_compute].
Defined.
(** ** Statistics of the sold listings *)

Import MarketResearch.





















(** ** The aggregation of the sources *)

Section Fetch.
Import CacheManager.
#[local] Arguments MarketResearch.calculate_sold_stats : simpl never.
Variable research : string → string → string → exc (list SoldListing.t).
Variable analyze : string → string → string → exc BrowseAPI.active_stats.

(** The first block returns, whatever the research does. *)
Lemma fetch_sold_comps_returns (brand model cond : string) (md : MarketData.t) :
  ∃ md', fetch_sold_comps research brand model cond md = (Ok tt, md').
Proof.
  unfold fetch_sold_comps. st_unfold.
  destruct (research brand model cond) as [[|l listings]|e]; cbn; eauto.
  destruct (MarketResearch.calculate_sold_stats (l :: listings)); cbn; eauto.
Qed.

(** It leaves the record as it is when the research raises or finds
    nothing. *)
Lemma fetch_sold_comps_nothing (brand model cond : string) (md : MarketData.t) :
  (research brand model cond = Ok [] ∨ ∃ e, research brand model cond = Raise e) →
  fetch_sold_comps research brand model cond md = (Ok tt, md).
Proof.
  unfold fetch_sold_comps. st_unfold.
  by intros [-> | [e ->]].
Qed.

Lemma fetch_active_listings_returns (brand model cond : string)
    (md : MarketData.t) :
  ∃ md', fetch_active_listings analyze brand model cond md = (Ok tt, md').
Proof.
  unfold fetch_active_listings. st_unfold.
  destruct (analyze brand model cond) as [stats|e]; cbn; eauto.
  case_bool_decide; cbn; eauto.
Qed.

Lemma fetch_active_listings_nothing (brand model cond : string)
    (md : MarketData.t) :
  ((∃ stats, analyze brand model cond = Ok stats
             ∧ (BrowseAPI.active_listing_count stats ≤ 0)%Z)
   ∨ ∃ e, analyze brand model cond = Raise e) →
  fetch_active_listings analyze brand model cond md = (Ok tt, md).
Proof.
  unfold fetch_active_listings. st_unfold.
  intros [(stats & -> & Hc) | [e ->]]; [|done].
  by rewrite bool_decide_eq_false_2 by lia.
Qed.

(** The record fetched keeps the brand, model and condition asked for. *)
Lemma fetch_market_data_ok (brand model cond : string) (w : world) :
  ∃ md,
    fetch_market_data research analyze brand model cond w = (Ok md, tick w)
    ∧ MarketData.brand md = brand
    ∧ MarketData.model md = model
    ∧ MarketData.condition md = cond.
Proof.
  unfold fetch_market_data, datetime_now, fetch_sold_comps,
    fetch_active_listings. st_unfold.
  destruct (research brand model cond) as [[|l listings]|e]; cbn;
    [| destruct (MarketResearch.calculate_sold_stats (l :: listings)); cbn
     | ];
    (destruct (analyze brand model cond) as [stats|e']; cbn;
     [case_bool_decide; cbn|]); eauto 10.
Qed.

(** C5: [fetch_market_data] returns a record, whatever the two sources do,
    and raises nothing; when both sources raise or find nothing, the record
    has no sold listing, no active listing and no source. *)
Theorem fetch_market_data_returns (brand model cond : string) (w : world) :
  (∃ md,
     fetch_market_data research analyze brand model cond w = (Ok md, tick w)
     ∧ MarketData.brand md = brand
     ∧ MarketData.model md = model
     ∧ MarketData.condition md = cond)
  ∧ ((research brand model cond = Ok []
      ∨ ∃ e, research brand model cond = Raise e) →
     ((∃ stats, analyze brand model cond = Ok stats
                ∧ (BrowseAPI.active_listing_count stats ≤ 0)%Z)
      ∨ ∃ e, analyze brand model cond = Raise e) →
     ∃ md,
       fetch_market_data research analyze brand model cond w = (Ok md, tick w)
       ∧ MarketData.sold_count md = 0%Z
       ∧ MarketData.active_listing_count md = 0%Z
       ∧ MarketData.sources md = []).
Proof.
  split; [apply fetch_market_data_ok|].
  - intros Hr Ha.
    unfold fetch_market_data, datetime_now.
    unfold mbind at 1 2, st_mbind, st_bind, st_local.
    rewrite (fetch_sold_comps_nothing _ _ _ _ Hr).
    rewrite (fetch_active_listings_nothing _ _ _ _ Ha).
    eauto.
Qed.

End Fetch.

Lemma fetch_market_data_returns_witness :
  ∃ md,
    fetch_market_data Examples.research_fails Examples.analyze_fails
      "Apple" "iPad Air" "LIKE_NEW" Examples.empty_world
    = (Ok md, CacheManager.tick Examples.empty_world)
    ∧ MarketData.sold_count md = 0%Z
    ∧ MarketData.active_listing_count md = 0%Z
    ∧ MarketData.sources md = [].
Proof.
  apply (fetch_market_data_returns Examples.research_fails
           Examples.analyze_fails "Apple" "iPad Air" "LIKE_NEW"
           Examples.empty_world).
  - right. by eexists.
  - right. by eexists.
Defined.
(** ** The cache *)

Section Cache.
Import CacheManager Json.
Context {iso : IsoFormat}.

Lemma deserialize_serialize_listing (listing : SoldListing.t) :
  deserialize_listing (serialize_listing listing) = Ok listing.
Proof.
  destruct listing as [title price sold_date condition source url].
  unfold deserialize_listing, serialize_listing. cbn.
  rewrite fromisoformat_isoformat. cbn.
  by destruct url.
Qed.

Lemma deserialize_serialize_listings (listings : list SoldListing.t) :
  exc_map deserialize_listing (map serialize_listing listings) = Ok listings.
Proof.
  induction listings as [|l listings IH]; [done|]. cbn [map exc_map].
  rewrite deserialize_serialize_listing, IH. done.
Qed.

Lemma as_str_sources (sources : list string) :
  exc_map as_str (map JStr sources) = Ok sources.
Proof.
  induction sources as [|s sources IH]; [done|]. cbn [map exc_map].
  cbn. by rewrite IH.
Qed.

Lemma deserialize_serialize_run (md : MarketData.t) (w : world) :
  _deserialize_market_data (_serialize_market_data md) w
  = (Ok (MarketData.mk
           (MarketData.brand md) (MarketData.model md)
           (MarketData.condition md)
           (MarketData.avg_sold_price md) (MarketData.median_sold_price md)
           (MarketData.price_range_low md) (MarketData.price_range_high md)
           (MarketData.sold_count md) (MarketData.sold_listings md)
           (MarketData.active_listing_count md)
           (MarketData.avg_active_price md) (MarketData.median_active_price md)
           (MarketData.confidence md)
           0
           (MarketData.sources md)
           (clock w 0%nat)),
     tick w).
Proof.
  unfold _deserialize_market_data, _serialize_market_data, datetime_now.
  st_unfold. cbn.
  rewrite deserialize_serialize_listings. cbn.
  rewrite as_str_sources. done.
Qed.

(** C10: deserializing the serialization of a record gives the record back
    in every field but [data_age_hours] and [created_at], which take the
    defaults of a new record: 0.0 and the time of the clock. *)
Theorem deserialize_serialize (md : MarketData.t) (w : world) :
  _deserialize_market_data (_serialize_market_data md) w
  = (Ok (MarketData.mk
           (MarketData.brand md) (MarketData.model md)
           (MarketData.condition md)
           (MarketData.avg_sold_price md) (MarketData.median_sold_price md)
           (MarketData.price_range_low md) (MarketData.price_range_high md)
           (MarketData.sold_count md) (MarketData.sold_listings md)
           (MarketData.active_listing_count md)
           (MarketData.avg_active_price md) (MarketData.median_active_price md)
           (MarketData.confidence md)
           0
           (MarketData.sources md)
           (clock w 0%nat)),
     tick w).
Proof. apply deserialize_serialize_run. Qed.



End Cache.
(** A text in the column [expires_at] that is not a time is read outside
    the [try] block of [get_cached_market_data]: the error is raised to the
    caller. *)
Remark get_cached_market_data_bad_expiry {iso : IsoFormat}
    (brand model cond : string) (w : CacheManager.world)
    (r : CacheManager.row) (err : exception) :
  CacheManager.db w !! CacheManager._generate_cache_key brand model cond
    = Some r →
  fromisoformat (CacheManager.expires_at r) = Raise err →
  CacheManager.get_cached_market_data brand model cond w = (Raise err, w).
Proof.
  intros Hrow Hexp.
  unfold CacheManager.get_cached_market_data, CacheManager.select_row.
  st_unfold. by rewrite Hrow, Hexp.
Qed.

(** ** The recommendation *)

Section Recommendation.
Import CacheManager.
Context {iso : IsoFormat}.
Variable research : string → string → string → exc (list SoldListing.t).
Variable analyze : string → string → string → exc BrowseAPI.active_stats.
Variable lookup : string → option upc_data.

(** What [cache_market_data] writes: the row of the record under the key of
    its brand, model and condition. *)
Lemma cache_market_data_run (md : MarketData.t) (w : world) :
  ∃ r,
    cache_market_data md w
    = (Ok tt,
       {| db := <[_generate_cache_key (MarketData.brand md)
                    (MarketData.model md) (MarketData.condition md) := r]>
                  (db w);
          clock := clock (tick w) |})
    ∧ data_json r = _serialize_market_data md
    ∧ fromisoformat (created_at r) = Ok (clock w 0%nat)
    ∧ fromisoformat (expires_at r)
      = Ok (clock w 0%nat + timedelta_hours 24)%Z.
Proof.
  eexists. unfold cache_market_data, datetime_now, insert_or_replace.
  st_unfold. cbn. split; [reflexivity|]. cbn.
  by rewrite !fromisoformat_isoformat.
Qed.

(** C8, amended: on a cache miss the record fetched is stored in the cache
    when it has a sold listing or an active listing, and only then: a record
    without either is priced but not stored. *)
Theorem fetched_record_cached (brand model cond : string)
    (retail : option float) (upc : option string) (w w1 : world)
    (b pn : string) (rp : option float) :
  apply_upc lookup brand model retail upc = (b, pn, rp) →
  get_cached_market_data b pn (normalize_condition cond) w = (Ok None, w1) →
  let nc := normalize_condition cond in
  let res :=
    get_pricing_recommendation research analyze lookup brand model cond
      retail upc w in
  ∃ md,
    fetch_market_data research analyze b pn nc w1 = (Ok md, tick w1)
    ∧ res.1 = Ok (calculate_pricing_from_market_data md nc rp)
    ∧ ((0 < MarketData.sold_count md
        ∨ 0 < MarketData.active_listing_count md)%Z →
       res.2 = (cache_market_data md (tick w1)).2
       ∧ ∃ r, db res.2 !! _generate_cache_key b pn nc = Some r
              ∧ data_json r = _serialize_market_data md)
    ∧ ((MarketData.sold_count md ≤ 0
        ∧ MarketData.active_listing_count md ≤ 0)%Z →
       res.2 = tick w1 ∧ db res.2 = db w1).
Proof.
  intros Hupc Hmiss nc res. subst nc.
  destruct (fetch_market_data_ok research analyze b pn
              (normalize_condition cond) w1)
    as (md & Hfetch & Hb & Hm & Hc).
  destruct (cache_market_data_run md (tick w1)) as (r & Hrun & Hjson & _).
  exists md. split; [done|].
  assert (res
          = (Ok (calculate_pricing_from_market_data md
                   (normalize_condition cond) rp),
             if bool_decide (0 < MarketData.sold_count md)%Z
                || bool_decide (0 < MarketData.active_listing_count md)%Z
             then (cache_market_data md (tick w1)).2
             else tick w1)) as ->.
  { unfold res, get_pricing_recommendation. rewrite Hupc.
    st_unfold. cbv beta. rewrite Hmiss. cbv beta iota. rewrite Hfetch.
    destruct (bool_decide (0 < MarketData.sold_count md)%Z
              || bool_decide (0 < MarketData.active_listing_count md)%Z);
      [by rewrite Hrun|done]. }
  cbn [fst snd]. split; [done|]. split.
  - intros Hdata.
    assert (bool_decide (0 < MarketData.sold_count md)%Z
            || bool_decide (0 < MarketData.active_listing_count md)%Z = true)
      as ->.
    { apply orb_true_iff.
      destruct Hdata; [left|right]; by apply bool_decide_eq_true_2. }
    split; [done|]. rewrite Hrun. cbn [snd db].
    exists r. rewrite <- Hb, <- Hm, <- Hc at 1.
    by rewrite lookup_insert_eq.
  - intros [Hs Ha].
    rewrite !bool_decide_eq_false_2 by lia. done.
Qed.

End Recommendation.

(** C8, as stated, fails: with no cache entry and two sources that find
    nothing, the record fetched is priced from the retail price and is not
    stored; the cache stays empty. *)
Lemma empty_record_not_cached :
  let res :=
    get_pricing_recommendation (iso := Examples.decimal_iso)
      Examples.research_nothing
      (BrowseAPI.analyze_active_competition Examples.search_nothing)
      Examples.lookup_nothing
      "Apple" "iPad Air" "LIKE_NEW" (Some (fl 599.00)) None
      Examples.empty_world in
  (CacheManager.get_cached_market_data (iso := Examples.decimal_iso)
     "Apple" "iPad Air" "LIKE_NEW" Examples.empty_world).1 = Ok None
  ∧ ¬ is_Some (CacheManager.db res.2
                 !! CacheManager._generate_cache_key
                      "Apple" "iPad Air" "LIKE_NEW")
  ∧ CacheManager.db res.2 = ∅.
Proof.
  cbv zeta. split; [reflexivity|]. split.
  - intros [r Hr]. vm_compute in Hr. discriminate.
  - reflexivity.
Qed.

Lemma fetched_record_cached_witness :
  ∃ md,
    (get_pricing_recommendation (iso := Examples.decimal_iso)
       Examples.research_nothing
       (BrowseAPI.analyze_active_competition Examples.search_unpriced)
       Examples.lookup_nothing
       "Acme" "Widget" "USED_GOOD" None None Examples.empty_world).1
    = Ok (calculate_pricing_from_market_data md "USED_GOOD" None).
Proof.
  destruct (fetched_record_cached (iso := Examples.decimal_iso)
              Examples.research_nothing
              (BrowseAPI.analyze_active_competition Examples.search_unpriced)
              Examples.lookup_nothing
              "Acme" "Widget" "USED_GOOD" None None
              Examples.empty_world Examples.empty_world
              "Acme" "Widget" None)
    as (md & _ & Hres & _); [reflexivity..|].
  exists md. exact Hres.
Defined.

(** The scenario of the retail fallback: no cache entry, no market data, a
    retail price of 599.00 and the condition LIKE_NEW give the price
    599.00 * 0.50 * 0.92 = 275.54 with confidence 0.3. *)
Example retail_fallback_scenario :
  ∃ r,
    (get_pricing_recommendation (iso := Examples.decimal_iso)
       Examples.research_nothing
       (BrowseAPI.analyze_active_competition Examples.search_nothing)
       Examples.lookup_nothing
       "Apple" "iPad Air" "LIKE_NEW" (Some (fl 599.00)) None
       Examples.empty_world).1 = Ok r
    ∧ BIN r = fl 275.54
    ∧ PricingRecommendation.confidence r = fl 0.3.
Proof.
  eexists. split; [reflexivity|]. split; by_compute.
Qed.
